(** * dnspod-go: the domain and record services

    A shallow embedding of [records.go] and of the domains service of the
    DNSPod client.  Every operation builds a form payload ([url.Values]) on
    top of the client's common parameters, posts it to a named remote method
    and inspects the status block of the decoded envelope.

    The HTTP client itself ([Client.post], [CommonParams.toPayLoad],
    [Response]) lives outside these two files: operations are therefore
    written as call trees over an abstract transport and interpreted against
    any transport behaviour. *)

From stdpp Require Import gmap strings list fin_maps pretty.

Local Open Scope string_scope.

(** ** Go values *)

(** [json.Number] is a string type; [Number.String()] returns it unchanged. *)
Definition Number := string.
Definition Number_String (n : Number) : string := n.

(** [strconv.Itoa]: base-10 rendering of an [int], with a leading minus sign
    for negative values. *)
Definition Itoa (i : Z) : string := pretty i.

(** A slice is either [nil] or a sequence of elements. *)
Definition slice (A : Type) : Type := option (list A).

(** [error]: the only observation made on an error is its text. *)
Record error : Type := errors_New { Error : string }.

(** [fmt.Errorf(prefix + "%s", msg)] with a string operand. *)
Definition Errorf (prefix msg : string) : error := errors_New (prefix +:+ msg).

(** [strings.Contains]: [sub] occurs somewhere inside [s]. *)
Fixpoint Contains (s sub : string) : bool :=
  String.prefix sub s ||
  match s with
  | EmptyString => false
  | String _ s' => Contains s' sub
  end.

Definition nonempty (s : string) : bool := negb (String.eqb s "").

(** ** url.Values *)

(** [url.Values] is [map[string][]string]. *)
Abbreviation Values := (gmap string (list string)).

(** [v.Add(key, value)]: append to the values already stored under [key]. *)
Definition Add (key value : string) (v : Values) : Values :=
  <[key := (default [] (v !! key) ++ [value])%list]> v.

(** [v.Set(key, value)]: replace whatever is stored under [key]. *)
Definition Set_ (key value : string) (v : Values) : Values :=
  <[key := [value]]> v.

(** [if c { payload.Add(...) }] *)
Definition when (c : bool) (f : Values → Values) (v : Values) : Values :=
  if c then f v else v.

(** ** Entities *)

Module Status.
(** Modelled from the spec: the status block of every response envelope
    (declared next to the HTTP client), a string code and a message. *)
Record t : Type := mk { Code : string; Message : string }.
Definition zero : t := mk "" "".
End Status.

Module DomainInfo.
Record t : Type := mk {
  DomainTotal : Number; AllTotal : Number; MineTotal : Number;
  ShareTotal : Number; VipTotal : Number; IsMarkTotal : Number;
  PauseTotal : Number; ErrorTotal : Number; LockTotal : Number;
  SpamTotal : Number; VipExpire : Number; ShareOutTotal : Number }.
Definition zero : t := mk "" "" "" "" "" "" "" "" "" "" "" "".
End DomainInfo.

Module Domain.
Record t : Type := mk {
  ID : Number; Name : string; PunyCode : string; Grade : string;
  GradeTitle : string; Status : string; ExtStatus : string;
  Records : string; GroupID : Number; IsMark : string; Remark : string;
  IsVIP : string; SearchenginePush : string; UserID : string;
  CreatedOn : string; UpdatedOn : string; TTL : string;
  CNameSpeedUp : string; Owner : string; AuthToAnquanBao : bool }.
Definition zero : t :=
  mk "" "" "" "" "" "" "" "" "" "" "" "" "" "" "" "" "" "" "" false.
End Domain.

Module DNSRecord.
(** [type Record struct]; [Weight] is a [*int]. *)
Record t : Type := mk {
  ID : string; Name : string; Line : string; LineID : string;
  Type_ : string; TTL : string; Value : string; MX : string;
  Enabled : string; Status : string; MonitorStatus : string;
  Remark : string; UpdateOn : string; UseAQB : string;
  Weight : option Z }.
Definition zero : t := mk "" "" "" "" "" "" "" "" "" "" "" "" "" "" None.
End DNSRecord.

Module RecordModify.
Record t : Type := mk {
  ID : Number; Name : string; Value : string; Status : string }.
Definition zero : t := mk "" "" "" "".
End RecordModify.

Module RecordParam.
Record t : Type := mk { DomainID : string; Domain : string }.
End RecordParam.

Module ListParams.
(** The embedded [*RecordParam] may be [nil]. *)
Record t : Type := mk {
  RecordParam : option RecordParam.t;
  Offset : string; Length : string; SubDomain : string;
  RecordType : string; RecordLine : string; RecordLineID : string;
  keyword : string }.
End ListParams.

(** ** Response envelopes *)

Module domainListWrapper.
Record t : Type := mk {
  Status : Status.t; Info : DomainInfo.t; Domains : slice Domain.t }.
Definition zero : t := mk Status.zero DomainInfo.zero None.
End domainListWrapper.

Module domainWrapper.
Record t : Type := mk {
  Status : Status.t; Info : DomainInfo.t; Domain : Domain.t }.
Definition zero : t := mk Status.zero DomainInfo.zero Domain.zero.
End domainWrapper.

Module recordsWrapper.
Record t : Type := mk {
  Status : Status.t; Info : DomainInfo.t; Records : slice DNSRecord.t }.
Definition zero : t := mk Status.zero DomainInfo.zero None.
End recordsWrapper.

Module recordWrapper.
Record t : Type := mk {
  Status : Status.t; Info : DomainInfo.t; Record_ : DNSRecord.t }.
Definition zero : t := mk Status.zero DomainInfo.zero DNSRecord.zero.
End recordWrapper.

Module recordModifyWrapper.
Record t : Type := mk { Status : Status.t; Record_ : RecordModify.t }.
Definition zero : t := mk Status.zero RecordModify.zero.
End recordModifyWrapper.

(** The envelope types that are handed to [post] as its [interface{}]
    argument. *)
Inductive wrapper : Type :=
| WDomainList | WDomain | WRecords | WRecord | WRecordModify.

Definition envelope (w : wrapper) : Type :=
  match w with
  | WDomainList => domainListWrapper.t
  | WDomain => domainWrapper.t
  | WRecords => recordsWrapper.t
  | WRecord => recordWrapper.t
  | WRecordModify => recordModifyWrapper.t
  end.

(** ** Remote method names *)

Definition methodDomainList : string := "Domain.List".
Definition methodDomainCreate : string := "Domain.Create".
Definition methodDomainInfo : string := "Domain.Info".
Definition methodDomainRemove : string := "Domain.Remove".

Definition methodRecordList : string := "Record.List".
Definition methodRecordCreate : string := "Record.Create".
Definition methodRecordInfo : string := "Record.Info".
Definition methodRecordRemove : string := "Record.Remove".
Definition methodRecordModify : string := "Record.Modify".

(** ** The transport and the operations *)

Section Services.

(** The transport-level [Response] wraps the HTTP response; nothing of it
    is inspected by the services. *)
Context {Response : Type}.

(** What [client.post] hands back: [(res, err)] and the envelope behind the
    pointer it was given, as left by the JSON decoder. *)
Definition PostResult (w : wrapper) : Type :=
  (option Response * option error * envelope w)%type.

(** A service method is a computation that may call [client.post]. *)
Inductive Call (A : Type) : Type :=
| Return (a : A)
| Panic
| Post (w : wrapper) (method : string) (payload : Values) (v : envelope w)
       (k : PostResult w → Call A).
Global Arguments Return {A} a.
Global Arguments Panic {A}.
Global Arguments Post {A} w method payload v k.

(** A behaviour of [client.post]. *)
Definition Transport : Type :=
  ∀ w : wrapper, string → Values → envelope w → PostResult w.

(** Result of a call against a transport; [None] is a run-time panic. *)
Fixpoint run {A} (post : Transport) (c : Call A) : option A :=
  match c with
  | Return a => Some a
  | Panic => None
  | Post w method payload v k => run post (k (post w method payload v))
  end.

(** The requests a call sends, in order: remote method and form payload. *)
Fixpoint outbound {A} (post : Transport) (c : Call A)
  : list (string * Values) :=
  match c with
  | Return _ | Panic => []
  | Post w method payload v k =>
      (method, payload) :: outbound post (k (post w method payload v))
  end.

(** The client's [CommonParams.toPayLoad()]: the common parameters as a
    map of their own, built anew for every call. *)
Variable toPayLoad : Values.

(** *** DomainsService *)

Definition DomainsService_List
  : Call (slice Domain.t * option Response * option error) :=
  let payload := toPayLoad in
  Post WDomainList methodDomainList payload domainListWrapper.zero
    (λ '(res, err, returnedDomains),
      match err with
      | Some e => Return (None, res, Some e)
      | None =>
        if negb (String.eqb
                   (Status.Code (domainListWrapper.Status returnedDomains))
                   "1")
        then Return (None, None,
               Some (Errorf "could not get domains: "
                       (Status.Message
                          (domainListWrapper.Status returnedDomains))))
        else Return (domainListWrapper.Domains returnedDomains, res, None)
      end).

Definition DomainsService_Create_payload (domainAttributes : Domain.t)
  : Values :=
  let payload := toPayLoad in
  let payload := Set_ "domain" (Domain.Name domainAttributes) payload in
  let payload :=
    Set_ "group_id" (Number_String (Domain.GroupID domainAttributes))
      payload in
  let payload := Set_ "is_mark" (Domain.IsMark domainAttributes) payload in
  payload.

Definition DomainsService_Create (domainAttributes : Domain.t)
  : Call (Domain.t * option Response * option error) :=
  let payload := DomainsService_Create_payload domainAttributes in
  Post WDomain methodDomainCreate payload domainWrapper.zero
    (λ '(res, err, returnedDomain),
      match err with
      | Some e => Return (Domain.zero, res, Some e)
      | None => Return (domainWrapper.Domain returnedDomain, res, None)
      end).

Definition DomainsService_Get_payload (id domain : string) : Values :=
  let payload := toPayLoad in
  let payload := Set_ "domain_id" id payload in
  let payload := Set_ "domain" domain payload in
  payload.

Definition DomainsService_Get (id domain : string)
  : Call (Domain.t * option Response * option error) :=
  let payload := DomainsService_Get_payload id domain in
  Post WDomain methodDomainInfo payload domainWrapper.zero
    (λ '(res, err, returnedDomain),
      match err with
      | Some e => Return (Domain.zero, res, Some e)
      | None => Return (domainWrapper.Domain returnedDomain, res, None)
      end).

Definition DomainsService_Delete_payload (id domain : string) : Values :=
  let payload := toPayLoad in
  let payload := Set_ "domain_id" id payload in
  let payload := Set_ "domain" domain payload in
  payload.

Definition DomainsService_Delete (id domain : string)
  : Call (option Response * option error) :=
  let payload := DomainsService_Delete_payload id domain in
  Post WDomain methodDomainRemove payload domainWrapper.zero
    (λ '(res, err, _), Return (res, err)).

(** *** RecordsService *)

(** [RecordParam.ToURLValues] hands its argument back untouched. *)
Definition RecordParam_ToURLValues (p : RecordParam.t) (values : Values)
  : Values := values.

(** [ListParams.ToURLValues]; calling the value-receiver method of the
    embedded [*RecordParam] through a nil pointer panics. *)
Definition ListParams_ToURLValues (p : ListParams.t) (values : Values)
  : option Values :=
  match ListParams.RecordParam p with
  | None => None
  | Some rp =>
    let values := RecordParam_ToURLValues rp values in
    let values :=
      when (nonempty (ListParams.Offset p))
        (Add "offset" (ListParams.Offset p)) values in
    let values :=
      when (nonempty (ListParams.Length p))
        (Add "length" (ListParams.Length p)) values in
    let values :=
      when (nonempty (ListParams.SubDomain p))
        (Add "sub_domain" (ListParams.SubDomain p)) values in
    let values :=
      when (nonempty (ListParams.RecordType p))
        (Add "record_type" (ListParams.RecordType p)) values in
    let values :=
      when (nonempty (ListParams.RecordLine p))
        (Add "record_line" (ListParams.RecordLine p)) values in
    let values :=
      when (nonempty (ListParams.RecordLineID p))
        (Add "record_line_id" (ListParams.RecordLineID p)) values in
    let values :=
      when (nonempty (ListParams.keyword p))
        (Add "keyword" (ListParams.keyword p)) values in
    Some values
  end.

(** The payload [List] has built when it reaches [post]; the promoted
    fields [p.DomainID] and [p.Domain] are read through the embedded
    pointer. *)
Definition RecordsService_List_payload (p : ListParams.t) : option Values :=
  let payload := toPayLoad in
  match ListParams_ToURLValues p payload, ListParams.RecordParam p with
  | Some payload, Some rp =>
    let payload :=
      when (nonempty (RecordParam.DomainID rp))
        (Add "domain_id" (RecordParam.DomainID rp)) payload in
    let payload :=
      when (nonempty (RecordParam.Domain rp))
        (Add "domain" (RecordParam.Domain rp)) payload in
    let payload :=
      when (nonempty (ListParams.RecordType p))
        (Add "record_type" (ListParams.RecordType p)) payload in
    Some payload
  | _, _ => None
  end.

Definition RecordsService_List (p : ListParams.t)
  : Call (slice DNSRecord.t * option Response * option error) :=
  match RecordsService_List_payload p with
  | None => Panic
  | Some payload =>
    Post WRecords methodRecordList payload recordsWrapper.zero
      (λ '(res, err, wrappedRecords),
        match err with
        | Some e => Return (None, res, Some e)
        | None =>
          let code := Status.Code (recordsWrapper.Status wrappedRecords) in
          if negb (String.eqb code "1") && negb (String.eqb code "10")
          then Return (None, None,
                 Some (Errorf "could not get domains: "
                         (Status.Message
                            (recordsWrapper.Status wrappedRecords))))
          else Return (recordsWrapper.Records wrappedRecords, res, None)
        end)
  end.

Definition RecordsService_Create_payload (domain domainId : string)
    (recordAttributes : DNSRecord.t) : Values :=
  let payload := toPayLoad in
  let payload := Add "domain" domain payload in
  let payload := Add "domain_id" domainId payload in
  let payload :=
    when (nonempty (DNSRecord.Name recordAttributes))
      (Add "sub_domain" (DNSRecord.Name recordAttributes)) payload in
  let payload :=
    when (nonempty (DNSRecord.Type_ recordAttributes))
      (Add "record_type" (DNSRecord.Type_ recordAttributes)) payload in
  let payload :=
    when (nonempty (DNSRecord.Line recordAttributes))
      (Add "record_line" (DNSRecord.Line recordAttributes)) payload in
  let payload :=
    when (nonempty (DNSRecord.LineID recordAttributes))
      (Add "record_line_id" (DNSRecord.LineID recordAttributes)) payload in
  let payload :=
    when (nonempty (DNSRecord.Value recordAttributes))
      (Add "value" (DNSRecord.Value recordAttributes)) payload in
  let payload :=
    when (nonempty (DNSRecord.MX recordAttributes))
      (Add "mx" (DNSRecord.MX recordAttributes)) payload in
  let payload :=
    when (nonempty (DNSRecord.TTL recordAttributes))
      (Add "ttl" (DNSRecord.TTL recordAttributes)) payload in
  let payload :=
    when (nonempty (DNSRecord.Status recordAttributes))
      (Add "status" (DNSRecord.Status recordAttributes)) payload in
  let payload :=
    match DNSRecord.Weight recordAttributes with
    | Some weight => Add "weight" (Itoa weight) payload
    | None => payload
    end in
  payload.

Definition RecordsService_Create (domain domainId : string)
    (recordAttributes : DNSRecord.t)
  : Call (DNSRecord.t * option Response * option error) :=
  let payload :=
    RecordsService_Create_payload domain domainId recordAttributes in
  Post WRecord methodRecordCreate payload recordWrapper.zero
    (λ '(res, err, returnedRecord),
      match err with
      | Some e => Return (DNSRecord.zero, res, Some e)
      | None =>
        if negb (String.eqb
                   (Status.Code (recordWrapper.Status returnedRecord)) "1")
        then Return (recordWrapper.Record_ returnedRecord, None,
               Some (Errorf "could not create domains: "
                       (Status.Message
                          (recordWrapper.Status returnedRecord))))
        else Return (recordWrapper.Record_ returnedRecord, res, None)
      end).

Definition RecordsService_Get_payload (domain domainId : string)
    (recordID : Z) : Values :=
  let payload := toPayLoad in
  let payload := Add "domain" domain payload in
  let payload := Add "domain_id" domainId payload in
  let payload := Add "record_id" (Itoa recordID) payload in
  payload.

Definition RecordsService_Get (domain domainId : string) (recordID : Z)
  : Call (DNSRecord.t * option Response * option error) :=
  let payload := RecordsService_Get_payload domain domainId recordID in
  Post WRecord methodRecordInfo payload recordWrapper.zero
    (λ '(res, err, returnedRecord),
      match err with
      | Some e => Return (DNSRecord.zero, res, Some e)
      | None =>
        if negb (String.eqb
                   (Status.Code (recordWrapper.Status returnedRecord)) "1")
        then Return (recordWrapper.Record_ returnedRecord, None,
               Some (Errorf "could not get domains: "
                       (Status.Message
                          (recordWrapper.Status returnedRecord))))
        else Return (recordWrapper.Record_ returnedRecord, res, None)
      end).

Definition RecordsService_Update_payload (domainId domain recordID : string)
    (recordAttributes : DNSRecord.t) : Values :=
  let payload := toPayLoad in
  let payload := Add "domain_id" domainId payload in
  let payload := Add "domain" domain payload in
  let payload := Add "record_id" recordID payload in
  let payload :=
    when (nonempty (DNSRecord.Name recordAttributes))
      (Add "sub_domain" (DNSRecord.Name recordAttributes)) payload in
  let payload :=
    when (nonempty (DNSRecord.Type_ recordAttributes))
      (Add "record_type" (DNSRecord.Type_ recordAttributes)) payload in
  let payload :=
    when (nonempty (DNSRecord.Line recordAttributes))
      (Add "record_line" (DNSRecord.Line recordAttributes)) payload in
  let payload :=
    when (nonempty (DNSRecord.LineID recordAttributes))
      (Add "record_line_id" (DNSRecord.LineID recordAttributes)) payload in
  let payload :=
    when (nonempty (DNSRecord.Value recordAttributes))
      (Add "value" (DNSRecord.Value recordAttributes)) payload in
  let payload :=
    when (nonempty (DNSRecord.MX recordAttributes))
      (Add "mx" (DNSRecord.MX recordAttributes)) payload in
  let payload :=
    when (nonempty (DNSRecord.TTL recordAttributes))
      (Add "ttl" (DNSRecord.TTL recordAttributes)) payload in
  let payload :=
    when (nonempty (DNSRecord.Status recordAttributes))
      (Add "status" (DNSRecord.Status recordAttributes)) payload in
  let payload :=
    match DNSRecord.Weight recordAttributes with
    | Some weight => Add "weight" (Itoa weight) payload
    | None => payload
    end in
  payload.

Definition RecordsService_Update (domainId domain recordID : string)
    (recordAttributes : DNSRecord.t)
  : Call (RecordModify.t * option Response * option error) :=
  let payload :=
    RecordsService_Update_payload domainId domain recordID
      recordAttributes in
  Post WRecordModify methodRecordModify payload recordModifyWrapper.zero
    (λ '(res, err, returnedRecord),
      match err with
      | Some e => Return (RecordModify.zero, res, Some e)
      | None =>
        if negb (String.eqb
                   (Status.Code (recordModifyWrapper.Status returnedRecord))
                   "1")
        then Return (recordModifyWrapper.Record_ returnedRecord, None,
               Some (Errorf "could not get domains: "
                       (Status.Message
                          (recordModifyWrapper.Status returnedRecord))))
        else Return (recordModifyWrapper.Record_ returnedRecord, res, None)
      end).

Definition RecordsService_Delete_payload (domainId : Z)
    (domain recordID : string) : Values :=
  let payload := toPayLoad in
  let payload := Add "domain_id" (Itoa domainId) payload in
  let payload := Add "domain" domain payload in
  let payload := Add "record_id" recordID payload in
  payload.

Definition RecordsService_Delete (domainId : Z) (domain recordID : string)
  : Call (option Response * option error) :=
  let payload := RecordsService_Delete_payload domainId domain recordID in
  Post WRecord methodRecordRemove payload recordWrapper.zero
    (λ '(res, err, returnedRecord),
      match err with
      | Some e => Return (res, Some e)
      | None =>
        if negb (String.eqb
                   (Status.Code (recordWrapper.Status returnedRecord)) "1")
        then Return (None,
               Some (Errorf "could not get domains: "
                       (Status.Message
                          (recordWrapper.Status returnedRecord))))
        else Return (res, None)
      end).

End Services.

(** ** The guarded record attributes

    [Create] and [Update] run the same sequence of guarded additions over
    the payload they have built so far. *)
Definition recordAttributes_payload (recordAttributes : DNSRecord.t)
    (payload : Values) : Values :=
  let payload :=
    when (nonempty (DNSRecord.Name recordAttributes))
      (Add "sub_domain" (DNSRecord.Name recordAttributes)) payload in
  let payload :=
    when (nonempty (DNSRecord.Type_ recordAttributes))
      (Add "record_type" (DNSRecord.Type_ recordAttributes)) payload in
  let payload :=
    when (nonempty (DNSRecord.Line recordAttributes))
      (Add "record_line" (DNSRecord.Line recordAttributes)) payload in
  let payload :=
    when (nonempty (DNSRecord.LineID recordAttributes))
      (Add "record_line_id" (DNSRecord.LineID recordAttributes)) payload in
  let payload :=
    when (nonempty (DNSRecord.Value recordAttributes))
      (Add "value" (DNSRecord.Value recordAttributes)) payload in
  let payload :=
    when (nonempty (DNSRecord.MX recordAttributes))
      (Add "mx" (DNSRecord.MX recordAttributes)) payload in
  let payload :=
    when (nonempty (DNSRecord.TTL recordAttributes))
      (Add "ttl" (DNSRecord.TTL recordAttributes)) payload in
  let payload :=
    when (nonempty (DNSRecord.Status recordAttributes))
      (Add "status" (DNSRecord.Status recordAttributes)) payload in
  let payload :=
    match DNSRecord.Weight recordAttributes with
    | Some weight => Add "weight" (Itoa weight) payload
    | None => payload
    end in
  payload.

(** ** Stub transports

    Test doubles in the style of an [httptest] server: every request is
    answered with HTTP success and a fixed JSON body. *)

(** The envelope a decoder leaves behind for a body that carries only a
    status block. *)
Definition status_only (st : Status.t) (w : wrapper) : envelope w :=
  match w with
  | WDomainList => domainListWrapper.mk st DomainInfo.zero None
  | WDomain => domainWrapper.mk st DomainInfo.zero Domain.zero
  | WRecords => recordsWrapper.mk st DomainInfo.zero None
  | WRecord => recordWrapper.mk st DomainInfo.zero DNSRecord.zero
  | WRecordModify => recordModifyWrapper.mk st RecordModify.zero
  end.

(** A transport that answers every call with response [200] and the given
    status block. *)
Definition stub_status (st : Status.t) : @Transport nat :=
  λ w _ _ _, (Some 200, None, status_only st w).

(** A transport whose every call fails below the API level. *)
Definition stub_failing (e : error) : @Transport nat :=
  λ w _ _ v, (None, Some e, v).

(** Common parameters as a token-authenticated client sends them. *)
Definition stub_common : Values :=
  Set_ "format" "json" (Set_ "login_token" "id,token" ∅).

(** Sample arguments. *)
Definition list_example : ListParams.t :=
  ListParams.mk (Some (RecordParam.mk "" "example.com")) "" "" "" "" "" "" "".

Definition list_typed_example : ListParams.t :=
  ListParams.mk (Some (RecordParam.mk "" "example.com")) "" "" "" "A" "" "" "".

Definition domain_example : Domain.t :=
  Domain.mk "" "example.com" "" "" "" "" "" "" "" "" "" "" "" "" "" "" "" ""
    "" false.

Definition record_example : DNSRecord.t :=
  DNSRecord.mk "" "www" "" "" "A" "" "192.0.2.1" "" "" "" "" "" "" "" None.

Definition record_weighted_example : DNSRecord.t :=
  DNSRecord.mk "" "www" "" "" "A" "" "192.0.2.1" "" "" "" "" "" "" ""
    (Some 0%Z).

(** [payload] keeps every entry of [base]: the values [base] holds under a
    key are still there, in order, ahead of anything added later. *)
Definition extends (base payload : Values) : Prop :=
  ∀ key vs, base !! key = Some vs →
    ∃ ws, payload !! key = Some (vs ++ ws)%list.







(** The zero value each envelope starts from. *)
Definition zero_envelope (w : wrapper) : envelope w :=
  match w with
  | WDomainList => domainListWrapper.zero
  | WDomain => domainWrapper.zero
  | WRecords => recordsWrapper.zero
  | WRecord => recordWrapper.zero
  | WRecordModify => recordModifyWrapper.zero
  end.

(** The response and error parts of a three-valued return. *)
Definition response_and_error {Response A : Type}
    (r : A * option Response * option error)
  : option Response * option error := (r.1.2, r.2).

(** Whenever [c] returns a non-nil response, that response and the error
    beside it are the ones [post] gave for the request [(method, payload)]:
    an error made by the operation itself never travels with a response. *)
Definition response_only_from_post {Response A : Type}
    (view : A → option Response * option error) (post : @Transport Response)
    (w : wrapper) (method : string) (payload : Values) (c : Call A) : Prop :=
  ∀ a r e, run post c = Some a → view a = (Some r, e) →
    ∃ v, post w method payload (zero_envelope w) = (Some r, e, v).

(** ** Further test doubles *)

(** A transport that answers every call with response [200] and a decoded
    envelope taken from [reply]. *)
Definition stub_reply (reply : ∀ w, envelope w) : @Transport nat :=
  λ w _ _ _, (Some 200, None, reply w).

(** A transport whose calls fail after the HTTP exchange: a response is at
    hand, an error is returned, and the envelope may be partly filled. *)
Definition stub_rejecting (e : error) (reply : ∀ w, envelope w)
  : @Transport nat :=
  λ w _ _ _, (Some 502, Some e, reply w).

Definition record_stored_example : DNSRecord.t :=
  DNSRecord.mk "16894439" "www" "default" "0" "A" "600" "192.0.2.1" "0" "1"
    "enable" "" "" "2024-03-01 10:00:00" "no" None.

Definition record_annotated_example : DNSRecord.t :=
  DNSRecord.mk "16894439" "www" "" "" "A" "" "192.0.2.1" "" "0" "" "Down"
    "front end" "2024-03-01 10:00:00" "yes" None.

Definition domain_stored_example : Domain.t :=
  Domain.mk "2238269" "example.com" "example.com" "DP_Free" "Free" "enable"
    "notexist" "2" "1" "no" "" "no" "yes" "730060" "2024-03-01 10:00:00"
    "2024-03-01 10:00:00" "600" "enable" "api@dnspod.com" false.

Definition domain_annotated_example : Domain.t :=
  Domain.mk "2238269" "example.com" "xn--example" "DP_Free" "Free" "pause"
    "" "12" "" "" "parked" "no" "yes" "730060" "" "" "600" "" "" true.

(** A body with status code "1" and one stored entity of each kind. *)
Definition sample_reply (w : wrapper) : envelope w :=
  let ok := Status.mk "1" "Action completed successful" in
  match w with
  | WDomainList =>
      domainListWrapper.mk ok DomainInfo.zero (Some [domain_stored_example])
  | WDomain => domainWrapper.mk ok DomainInfo.zero domain_stored_example
  | WRecords =>
      recordsWrapper.mk ok DomainInfo.zero (Some [record_stored_example])
  | WRecord => recordWrapper.mk ok DomainInfo.zero record_stored_example
  | WRecordModify =>
      recordModifyWrapper.mk ok
        (RecordModify.mk "16894439" "www" "192.0.2.1" "enable")
  end.

Definition list_nil_example : ListParams.t :=
  ListParams.mk None "" "" "" "A" "" "" "".

Definition list_filtered_example : ListParams.t :=
  ListParams.mk (Some (RecordParam.mk "2238269" "example.com"))
    "20" "10" "www" "" "default" "" "mail".

(** * Properties *)

(** ** Payload lookups *)

Lemma lookup_Add_eq key value (v : Values) :
  Add key value v !! key = Some (default [] (v !! key) ++ [value])%list.
Proof. unfold Add. by rewrite lookup_insert_eq. Qed.

Lemma lookup_Add_ne key key' value (v : Values) :
  key ≠ key' → Add key value v !! key' = v !! key'.
Proof. intros. unfold Add. by rewrite lookup_insert_ne. Qed.

Lemma lookup_Set_eq key value (v : Values) :
  Set_ key value v !! key = Some [value].
Proof. unfold Set_. by rewrite lookup_insert_eq. Qed.

Lemma lookup_Set_ne key key' value (v : Values) :
  key ≠ key' → Set_ key value v !! key' = v !! key'.
Proof. intros. unfold Set_. by rewrite lookup_insert_ne. Qed.

Lemma lookup_when_Add_eq s key (v : Values) :
  when (nonempty s) (Add key s) v !! key =
  if decide (s = "") then v !! key
  else Some (default [] (v !! key) ++ [s])%list.
Proof.
  unfold when, nonempty. destruct (String.eqb_spec s "") as [->|Hs]; simpl.
  - done.
  - rewrite lookup_Add_eq. by destruct (decide (s = "")).
Qed.

Lemma lookup_when_Add_ne c key key' value (v : Values) :
  key ≠ key' → when c (Add key value) v !! key' = v !! key'.
Proof. intros. destruct c; simpl; [by apply lookup_Add_ne | done]. Qed.

(** ** Substrings *)

Lemma prefix_app (sub suf : string) : String.prefix sub (sub +:+ suf) = true.
Proof.
  induction sub as [|a sub IH].
  - by destruct suf.
  - change (String a sub +:+ suf) with (String a (sub +:+ suf)).
    cbn [String.prefix]. destruct (Ascii.ascii_dec a a); [exact IH | done].
Qed.

Lemma Contains_prefix (s sub : string) :
  String.prefix sub s = true → Contains s sub = true.
Proof. intros H. destruct s; cbn [Contains]; by rewrite H. Qed.

Lemma Contains_app (pre sub suf : string) :
  Contains (pre +:+ sub +:+ suf) sub = true.
Proof.
  induction pre as [|a pre IH].
  - apply Contains_prefix. exact (prefix_app sub suf).
  - change (String a pre +:+ sub +:+ suf)
      with (String a (pre +:+ sub +:+ suf)).
    cbn [Contains]. rewrite IH. apply orb_true_r.
Qed.

Lemma append_empty_r (s : string) : s +:+ "" = s.
Proof.
  induction s as [|a s IH]; [done |].
  change (String a s +:+ "") with (String a (s +:+ "")). by rewrite IH.
Qed.

Lemma Contains_Errorf (prefix msg : string) :
  Contains (Error (Errorf prefix msg)) msg = true.
Proof.
  unfold Errorf; cbn [Error].
  rewrite <- (append_empty_r msg) at 1. apply Contains_app.
Qed.

(** ** Status checks of the record listing *)

(** C1. When [post] succeeds for [RecordsService.List], a decoded status code
    of "1" or "10" makes [List] return the decoded records and the transport
    response with a nil error; every other code makes it return a nil record
    slice together with an error whose text contains the server's status
    message. *)
Theorem RecordsService_List_status {Response : Type}
    (base : Values) (post : @Transport Response) (p : ListParams.t)
    (payload : Values) (res : option Response)
    (wrappedRecords : recordsWrapper.t) :
  RecordsService_List_payload base p = Some payload →
  post WRecords methodRecordList payload recordsWrapper.zero
    = (res, None, wrappedRecords) →
  let code := Status.Code (recordsWrapper.Status wrappedRecords) in
  let message := Status.Message (recordsWrapper.Status wrappedRecords) in
  (code = "1" ∨ code = "10" →
     run post (RecordsService_List base p)
     = Some (recordsWrapper.Records wrappedRecords, res, None))
  ∧ (code ≠ "1" → code ≠ "10" →
     ∃ e, run post (RecordsService_List base p) = Some (None, None, Some e)
          ∧ Contains (Error e) message = true).
Proof.
  intros Hpayload Hpost code message.
  unfold RecordsService_List. rewrite Hpayload. cbn [run]. rewrite Hpost.
  fold code message. split.
  - intros [-> | ->]; reflexivity.
  - intros H1 H10.
    destruct (String.eqb_spec code "1"); [done |].
    destruct (String.eqb_spec code "10"); [done |].
    cbn [negb andb run]. eexists; split; [reflexivity |].
    apply Contains_Errorf.
Qed.

Lemma RecordsService_List_status_witness :
  run (stub_status (Status.mk "10" "No records"))
    (RecordsService_List stub_common list_example)
  = Some (None, Some 200, None)
  ∧ ∃ e, run (stub_status (Status.mk "6" "invalid domain"))
           (RecordsService_List stub_common list_example)
         = Some (None, None, Some e)
         ∧ Contains (Error e) "invalid domain" = true.
Proof.
  split.
  - apply (proj1 (RecordsService_List_status stub_common
                    (stub_status (Status.mk "10" "No records")) list_example
                    (Add "domain" "example.com" stub_common) (Some 200)
                    (status_only (Status.mk "10" "No records") WRecords)
                    eq_refl eq_refl)).
    right; reflexivity.
  - apply (proj2 (RecordsService_List_status stub_common
                    (stub_status (Status.mk "6" "invalid domain")) list_example
                    (Add "domain" "example.com" stub_common) (Some 200)
                    (status_only (Status.mk "6" "invalid domain") WRecords)
                    eq_refl eq_refl)); discriminate.
Defined.

(** ** What each operation sends *)

Section Outbound.
Context {Response : Type}.
Variable base : Values.
Variable post : @Transport Response.

Lemma outbound_DomainsService_List :
  outbound post (DomainsService_List base) = [(methodDomainList, base)].
Proof.
  unfold DomainsService_List; cbn [outbound].
  destruct (post _ _ _ _) as [[? [?|]] w]; [done |]. by destruct (negb _).
Qed.

Lemma outbound_DomainsService_Create domainAttributes :
  outbound post (DomainsService_Create base domainAttributes)
  = [(methodDomainCreate,
      DomainsService_Create_payload base domainAttributes)].
Proof.
  unfold DomainsService_Create; cbn [outbound].
  by destruct (post _ _ _ _) as [[? [?|]] ?].
Qed.

Lemma outbound_DomainsService_Get id domain :
  outbound post (DomainsService_Get base id domain)
  = [(methodDomainInfo, DomainsService_Get_payload base id domain)].
Proof.
  unfold DomainsService_Get; cbn [outbound].
  by destruct (post _ _ _ _) as [[? [?|]] ?].
Qed.

Lemma outbound_DomainsService_Delete id domain :
  outbound post (DomainsService_Delete base id domain)
  = [(methodDomainRemove, DomainsService_Delete_payload base id domain)].
Proof.
  unfold DomainsService_Delete; cbn [outbound].
  by destruct (post _ _ _ _) as [[? ?] ?].
Qed.

Lemma outbound_RecordsService_List p :
  outbound post (RecordsService_List base p)
  = match RecordsService_List_payload base p with
    | Some payload => [(methodRecordList, payload)]
    | None => []
    end.
Proof.
  unfold RecordsService_List.
  destruct (RecordsService_List_payload base p) as [payload|]; [|done].
  cbn [outbound]. destruct (post _ _ _ _) as [[? [?|]] w]; [done |].
  by destruct (negb _ && negb _).
Qed.

Lemma outbound_RecordsService_Create domain domainId recordAttributes :
  outbound post (RecordsService_Create base domain domainId recordAttributes)
  = [(methodRecordCreate,
      RecordsService_Create_payload base domain domainId recordAttributes)].
Proof.
  unfold RecordsService_Create; cbn [outbound].
  destruct (post _ _ _ _) as [[? [?|]] w]; [done |]. by destruct (negb _).
Qed.

Lemma outbound_RecordsService_Get domain domainId recordID :
  outbound post (RecordsService_Get base domain domainId recordID)
  = [(methodRecordInfo,
      RecordsService_Get_payload base domain domainId recordID)].
Proof.
  unfold RecordsService_Get; cbn [outbound].
  destruct (post _ _ _ _) as [[? [?|]] w]; [done |]. by destruct (negb _).
Qed.

Lemma outbound_RecordsService_Update domainId domain recordID
    recordAttributes :
  outbound post
    (RecordsService_Update base domainId domain recordID recordAttributes)
  = [(methodRecordModify,
      RecordsService_Update_payload base domainId domain recordID
        recordAttributes)].
Proof.
  unfold RecordsService_Update; cbn [outbound].
  destruct (post _ _ _ _) as [[? [?|]] w]; [done |]. by destruct (negb _).
Qed.

Lemma outbound_RecordsService_Delete domainId domain recordID :
  outbound post (RecordsService_Delete base domainId domain recordID)
  = [(methodRecordRemove,
      RecordsService_Delete_payload base domainId domain recordID)].
Proof.
  unfold RecordsService_Delete; cbn [outbound].
  destruct (post _ _ _ _) as [[? [?|]] w]; [done |]. by destruct (negb _).
Qed.

End Outbound.

(** ** Domain operations trust the server *)

(** C2. [DomainsService.Create], [Get] and [Delete] never look at the decoded
    status: whenever [post] succeeds, [Create] and [Get] return the decoded
    domain and the transport response with a nil error whatever the status
    code is, and [Delete] hands back the transport's response and nil
    error. *)
Theorem DomainsService_status_unchecked {Response : Type}
    (base : Values) (post : @Transport Response) :
  (∀ domainAttributes res returnedDomain,
     post WDomain methodDomainCreate
       (DomainsService_Create_payload base domainAttributes)
       domainWrapper.zero = (res, None, returnedDomain) →
     run post (DomainsService_Create base domainAttributes)
     = Some (domainWrapper.Domain returnedDomain, res, None))
  ∧ (∀ id domain res returnedDomain,
     post WDomain methodDomainInfo (DomainsService_Get_payload base id domain)
       domainWrapper.zero = (res, None, returnedDomain) →
     run post (DomainsService_Get base id domain)
     = Some (domainWrapper.Domain returnedDomain, res, None))
  ∧ (∀ id domain res returnedDomain,
     post WDomain methodDomainRemove
       (DomainsService_Delete_payload base id domain)
       domainWrapper.zero = (res, None, returnedDomain) →
     run post (DomainsService_Delete base id domain) = Some (res, None)).
Proof.
  repeat split; intros;
    unfold DomainsService_Create, DomainsService_Get, DomainsService_Delete;
    cbn [run]; by rewrite H.
Qed.

Lemma DomainsService_status_unchecked_witness :
  let refused := stub_status (Status.mk "6" "Invalid domain") in
  run refused (DomainsService_Create stub_common domain_example)
    = Some (Domain.zero, Some 200, None)
  ∧ run refused (DomainsService_Get stub_common "42" "example.com")
    = Some (Domain.zero, Some 200, None)
  ∧ run refused (DomainsService_Delete stub_common "42" "example.com")
    = Some (Some 200, None).
Proof.
  intros refused.
  destruct (DomainsService_status_unchecked stub_common refused)
    as (HCreate & HGet & HDelete).
  split; [| split].
  - exact (HCreate domain_example (Some 200)
             (status_only (Status.mk "6" "Invalid domain") WDomain) eq_refl).
  - exact (HGet "42" "example.com" (Some 200)
             (status_only (Status.mk "6" "Invalid domain") WDomain) eq_refl).
  - exact (HDelete "42" "example.com" (Some 200)
             (status_only (Status.mk "6" "Invalid domain") WDomain) eq_refl).
Defined.

(** ** Optional record attributes *)

Ltac payload_lookup :=
  repeat first
    [ rewrite lookup_when_Add_ne by done
    | rewrite lookup_Add_ne by done
    | rewrite lookup_Set_ne by done
    | rewrite lookup_when_Add_eq
    | rewrite lookup_Add_eq
    | rewrite lookup_Set_eq ].

Lemma lookup_recordAttributes_weight recordAttributes (payload : Values) :
  recordAttributes_payload recordAttributes payload !! "weight"
  = match DNSRecord.Weight recordAttributes with
    | Some weight =>
        Some (default [] (payload !! "weight") ++ [Itoa weight])%list
    | None => payload !! "weight"
    end.
Proof.
  unfold recordAttributes_payload.
  destruct (DNSRecord.Weight recordAttributes); by payload_lookup.
Qed.

(** The keys of the guarded attributes, each with the field it is read
    from. *)
Lemma lookup_recordAttributes_optional a (payload : Values) key field :
  (key, field) ∈ [("sub_domain", DNSRecord.Name a);
                  ("record_type", DNSRecord.Type_ a);
                  ("record_line", DNSRecord.Line a);
                  ("record_line_id", DNSRecord.LineID a);
                  ("value", DNSRecord.Value a);
                  ("mx", DNSRecord.MX a);
                  ("ttl", DNSRecord.TTL a);
                  ("status", DNSRecord.Status a)] →
  recordAttributes_payload a payload !! key
  = if decide (field = "") then payload !! key
    else Some (default [] (payload !! key) ++ [field])%list.
Proof.
  intros Hin. unfold recordAttributes_payload.
  repeat (apply elem_of_cons in Hin as [Hin | Hin]; [simplify_eq |]);
    [.. | by apply elem_of_nil in Hin];
    destruct (DNSRecord.Weight a); by payload_lookup.
Qed.

Lemma RecordsService_Create_payload_attributes (base : Values)
    domain domainId recordAttributes :
  RecordsService_Create_payload base domain domainId recordAttributes
  = recordAttributes_payload recordAttributes
      (Add "domain_id" domainId (Add "domain" domain base)).
Proof. reflexivity. Qed.

Lemma RecordsService_Update_payload_attributes (base : Values)
    domainId domain recordID recordAttributes :
  RecordsService_Update_payload base domainId domain recordID recordAttributes
  = recordAttributes_payload recordAttributes
      (Add "record_id" recordID
         (Add "domain" domain (Add "domain_id" domainId base))).
Proof. reflexivity. Qed.

Lemma optional_key_not_addressing a key field :
  (key, field) ∈ [("sub_domain", DNSRecord.Name a);
                  ("record_type", DNSRecord.Type_ a);
                  ("record_line", DNSRecord.Line a);
                  ("record_line_id", DNSRecord.LineID a);
                  ("value", DNSRecord.Value a);
                  ("mx", DNSRecord.MX a);
                  ("ttl", DNSRecord.TTL a);
                  ("status", DNSRecord.Status a)] →
  key ≠ "domain" ∧ key ≠ "domain_id" ∧ key ≠ "record_id".
Proof.
  intros Hin.
  repeat (apply elem_of_cons in Hin as [Hin | Hin]; [by simplify_eq |]).
  by apply elem_of_nil in Hin.
Qed.

(** C3. In [RecordsService.Create] and [RecordsService.Update] a nil [Weight]
    leaves the outbound payload without a "weight" key, and a [Weight]
    pointing to 0 puts the key "weight" with the single value "0" into it
    (for common parameters that carry no "weight" of their own). *)
Theorem RecordsService_weight_presence {Response : Type}
    (base : Values) (post : @Transport Response)
    (domain domainId recordID : string) (recordAttributes : DNSRecord.t) :
  base !! "weight" = None →
  ∃ created updated : Values,
    outbound post
      (RecordsService_Create base domain domainId recordAttributes)
      = [(methodRecordCreate, created)]
    ∧ outbound post
        (RecordsService_Update base domainId domain recordID recordAttributes)
      = [(methodRecordModify, updated)]
    ∧ (DNSRecord.Weight recordAttributes = None →
         created !! "weight" = None ∧ updated !! "weight" = None)
    ∧ (DNSRecord.Weight recordAttributes = Some 0%Z →
         created !! "weight" = Some ["0"]
         ∧ updated !! "weight" = Some ["0"]).
Proof.
  intros Hbase. eexists _, _.
  split; [apply outbound_RecordsService_Create |].
  split; [apply outbound_RecordsService_Update |].
  rewrite RecordsService_Create_payload_attributes,
    RecordsService_Update_payload_attributes.
  rewrite !lookup_recordAttributes_weight.
  split; intros ->; payload_lookup; by rewrite Hbase.
Qed.

Lemma RecordsService_weight_presence_witness :
  let ok := stub_status (Status.mk "1" "OK") in
  (∃ created updated : Values,
     outbound ok
       (RecordsService_Create stub_common "example.com" "7"
          record_weighted_example)
       = [(methodRecordCreate, created)]
     ∧ outbound ok
         (RecordsService_Update stub_common "7" "example.com" "99"
            record_weighted_example)
       = [(methodRecordModify, updated)]
     ∧ created !! "weight" = Some ["0"]
     ∧ updated !! "weight" = Some ["0"])
  ∧ (∃ created updated : Values,
     outbound ok
       (RecordsService_Create stub_common "example.com" "7" record_example)
       = [(methodRecordCreate, created)]
     ∧ outbound ok
         (RecordsService_Update stub_common "7" "example.com" "99"
            record_example)
       = [(methodRecordModify, updated)]
     ∧ created !! "weight" = None
     ∧ updated !! "weight" = None).
Proof.
  intros ok. split.
  - destruct (RecordsService_weight_presence stub_common ok
                "example.com" "7" "99" record_weighted_example eq_refl)
      as (created & updated & HC & HU & _ & Hzero).
    exists created, updated. split; [exact HC | split; [exact HU |]].
    exact (Hzero eq_refl).
  - destruct (RecordsService_weight_presence stub_common ok
                "example.com" "7" "99" record_example eq_refl)
      as (created & updated & HC & HU & Hnil & _).
    exists created, updated. split; [exact HC | split; [exact HU |]].
    exact (Hnil eq_refl).
Defined.

(** C4. In [RecordsService.Create] and [RecordsService.Update] each optional
    attribute (sub_domain from Name, record_type, record_line,
    record_line_id, value, mx, ttl, status) is a key of the outbound payload
    exactly when its input field is non-empty; the key then holds that field
    alone, so an empty field never shows up as an empty-string entry (for
    common parameters that do not carry the key themselves). *)
Theorem RecordsService_optional_attributes {Response : Type}
    (base : Values) (post : @Transport Response)
    (domain domainId recordID : string) (recordAttributes : DNSRecord.t)
    (key field : string) :
  (key, field) ∈ [("sub_domain", DNSRecord.Name recordAttributes);
                  ("record_type", DNSRecord.Type_ recordAttributes);
                  ("record_line", DNSRecord.Line recordAttributes);
                  ("record_line_id", DNSRecord.LineID recordAttributes);
                  ("value", DNSRecord.Value recordAttributes);
                  ("mx", DNSRecord.MX recordAttributes);
                  ("ttl", DNSRecord.TTL recordAttributes);
                  ("status", DNSRecord.Status recordAttributes)] →
  base !! key = None →
  ∃ created updated : Values,
    outbound post
      (RecordsService_Create base domain domainId recordAttributes)
      = [(methodRecordCreate, created)]
    ∧ outbound post
        (RecordsService_Update base domainId domain recordID recordAttributes)
      = [(methodRecordModify, updated)]
    ∧ (is_Some (created !! key) ↔ field ≠ "")
    ∧ (is_Some (updated !! key) ↔ field ≠ "")
    ∧ (∀ vs, created !! key = Some vs ∨ updated !! key = Some vs →
         vs = [field] ∧ "" ∉ vs).
Proof.
  intros Hin Hbase. eexists _, _.
  split; [apply outbound_RecordsService_Create |].
  split; [apply outbound_RecordsService_Update |].
  destruct (optional_key_not_addressing _ _ _ Hin) as (Hd & Hi & Hr).
  rewrite RecordsService_Create_payload_attributes,
    RecordsService_Update_payload_attributes.
  rewrite !(lookup_recordAttributes_optional _ _ _ _ Hin).
  rewrite !lookup_Add_ne, Hbase by done.
  destruct (decide (field = "")) as [-> | Hfield]; cbn [default app].
  - assert (is_Some (@None (list string)) ↔ "" ≠ "") as Habsent
      by (split; [by intros [? ?] | done]).
    split; [exact Habsent | split; [exact Habsent |]].
    by intros vs [? | ?].
  - assert (is_Some (Some [field]) ↔ field ≠ "") as Hpresent
      by (split; [done | by eexists]).
    split; [exact Hpresent | split; [exact Hpresent |]].
    intros vs Hvs. assert (vs = [field]) as -> by (destruct Hvs; congruence).
    split; [done |]. by intros ?%list_elem_of_singleton.
Qed.

Lemma RecordsService_optional_attributes_witness :
  ∃ created updated : Values,
    outbound (stub_status (Status.mk "1" "OK"))
      (RecordsService_Create stub_common "example.com" "7" record_example)
      = [(methodRecordCreate, created)]
    ∧ outbound (stub_status (Status.mk "1" "OK"))
        (RecordsService_Update stub_common "7" "example.com" "99"
           record_example)
      = [(methodRecordModify, updated)]
    ∧ (is_Some (created !! "value") ↔ DNSRecord.Value record_example ≠ "")
    ∧ (is_Some (updated !! "value") ↔ DNSRecord.Value record_example ≠ "")
    ∧ (∀ vs, created !! "value" = Some vs ∨ updated !! "value" = Some vs →
         vs = [DNSRecord.Value record_example] ∧ "" ∉ vs).
Proof.
  apply (RecordsService_optional_attributes stub_common
           (stub_status (Status.mk "1" "OK")) "example.com" "7" "99"
           record_example "value" (DNSRecord.Value record_example)).
  - do 4 apply list_elem_of_further. apply list_elem_of_here.
  - reflexivity.
Defined.

(** ** Domain creation sends every attribute *)

(** C5, as the code has it. [DomainsService.Create] writes "group_id" and
    "is_mark" with [Set] and without a guard: both keys are always in the
    outbound payload, each holding exactly the input's value, which is the
    empty string when the attribute was left out. *)
Theorem DomainsService_Create_sends_group_and_mark {Response : Type}
    (base : Values) (post : @Transport Response)
    (domainAttributes : Domain.t) :
  ∃ payload : Values,
    outbound post (DomainsService_Create base domainAttributes)
      = [(methodDomainCreate, payload)]
    ∧ payload !! "domain" = Some [Domain.Name domainAttributes]
    ∧ payload !! "group_id"
      = Some [Number_String (Domain.GroupID domainAttributes)]
    ∧ payload !! "is_mark" = Some [Domain.IsMark domainAttributes].
Proof.
  eexists. split; [apply outbound_DomainsService_Create |].
  unfold DomainsService_Create_payload. by payload_lookup.
Qed.

(** C5, refuted as stated: a domain created with neither group nor mark
    still sends both keys, bound to the empty string. *)
Lemma DomainsService_Create_omitted_still_sent :
  Domain.GroupID domain_example = ""
  ∧ Domain.IsMark domain_example = ""
  ∧ ∃ payload : Values,
      outbound (stub_status (Status.mk "1" "OK"))
        (DomainsService_Create stub_common domain_example)
        = [(methodDomainCreate, payload)]
      ∧ payload !! "group_id" = Some [""]
      ∧ payload !! "is_mark" = Some [""]
      ∧ ¬ (payload !! "group_id" = None ∧ payload !! "is_mark" = None).
Proof.
  split; [reflexivity |]. split; [reflexivity |].
  eexists. split; [reflexivity |].
  unfold DomainsService_Create_payload.
  repeat split; try by payload_lookup.
  intros [H _]. revert H. by payload_lookup.
Qed.

(** ** Common parameters come first *)

Lemma extends_refl (base : Values) : extends base base.
Proof. intros key vs ->. exists []. by rewrite app_nil_r. Qed.

Lemma extends_Add (base payload : Values) key value :
  extends base payload → extends base (Add key value payload).
Proof.
  intros Hext key' vs Hbase. destruct (Hext key' vs Hbase) as [ws Hws].
  destruct (decide (key = key')) as [<- | Hne].
  - rewrite lookup_Add_eq, Hws. exists (ws ++ [value])%list.
    simpl. by rewrite <- app_assoc.
  - rewrite lookup_Add_ne by done. by exists ws.
Qed.

Lemma extends_when_Add (base payload : Values) c key value :
  extends base payload → extends base (when c (Add key value) payload).
Proof. intros. destruct c; simpl; [by apply extends_Add | done]. Qed.

Lemma extends_recordAttributes (base payload : Values) recordAttributes :
  extends base payload →
  extends base (recordAttributes_payload recordAttributes payload).
Proof.
  intros Hext. unfold recordAttributes_payload.
  destruct (DNSRecord.Weight recordAttributes);
    repeat first [apply extends_Add | apply extends_when_Add]; done.
Qed.

Lemma extends_RecordsService_List (base payload : Values) p :
  RecordsService_List_payload base p = Some payload → extends base payload.
Proof.
  unfold RecordsService_List_payload, ListParams_ToURLValues,
    RecordParam_ToURLValues.
  destruct (ListParams.RecordParam p) as [rp|]; [| done].
  intros [= <-]. repeat apply extends_when_Add. apply extends_refl.
Qed.









(** ** Fetching one record *)

Lemma Itoa_inj (i j : Z) : Itoa i = Itoa j → i = j.
Proof. unfold Itoa. apply (inj pretty). Qed.

Example Itoa_samples :
  Itoa 0 = "0" ∧ Itoa 42 = "42" ∧ Itoa 1203 = "1203" ∧ Itoa (-7) = "-7".
Proof. repeat split; reflexivity. Qed.

(** C7. [RecordsService.Get] appends the decimal rendering of its integer
    [recordID] under "record_id" in the payload it posts, and when [post]
    succeeds with any status code other than "1" it returns an error whose
    text contains the server's status message (and no response). *)
Theorem RecordsService_Get_record_id_and_status {Response : Type}
    (base : Values) (post : @Transport Response)
    (domain domainId : string) (recordID : Z) :
  (∃ payload : Values,
     outbound post (RecordsService_Get base domain domainId recordID)
       = [(methodRecordInfo, payload)]
     ∧ payload !! "record_id"
       = Some (default [] (base !! "record_id") ++ [Itoa recordID])%list)
  ∧ (∀ res returnedRecord,
       post WRecord methodRecordInfo
         (RecordsService_Get_payload base domain domainId recordID)
         recordWrapper.zero = (res, None, returnedRecord) →
       Status.Code (recordWrapper.Status returnedRecord) ≠ "1" →
       ∃ e,
         run post (RecordsService_Get base domain domainId recordID)
           = Some (recordWrapper.Record_ returnedRecord, None, Some e)
         ∧ Contains (Error e)
             (Status.Message (recordWrapper.Status returnedRecord)) = true).
Proof.
  split.
  - eexists. split; [apply outbound_RecordsService_Get |].
    unfold RecordsService_Get_payload. by payload_lookup.
  - intros res returnedRecord Hpost Hcode.
    unfold RecordsService_Get. cbn [run]. rewrite Hpost.
    destruct (String.eqb_spec
                (Status.Code (recordWrapper.Status returnedRecord)) "1");
      [done |].
    cbn [negb run]. eexists. split; [reflexivity |]. apply Contains_Errorf.
Qed.

Lemma RecordsService_Get_record_id_and_status_witness :
  let missing := stub_status (Status.mk "6" "no such record") in
  (∃ payload : Values,
     outbound missing (RecordsService_Get stub_common "example.com" "7" 42)
       = [(methodRecordInfo, payload)]
     ∧ payload !! "record_id" = Some ["42"])
  ∧ ∃ e,
      run missing (RecordsService_Get stub_common "example.com" "7" 42)
        = Some (DNSRecord.zero, None, Some e)
      ∧ Contains (Error e) "no such record" = true.
Proof.
  intros missing.
  destruct (RecordsService_Get_record_id_and_status stub_common missing
              "example.com" "7" 42) as [Hpayload Hstatus].
  split; [exact Hpayload |].
  apply (Hstatus (Some 200)
           (status_only (Status.mk "6" "no such record") WRecord) eq_refl).
  discriminate.
Defined.

(** ** Remote method names *)

(** C8. Each public operation posts to the remote method of the wire
    contract and to nothing else: the domain operations to "Domain.List",
    "Domain.Create", "Domain.Info" and "Domain.Remove", the record
    operations to "Record.List", "Record.Create", "Record.Info",
    "Record.Modify" and "Record.Remove".  (A record listing whose embedded
    [RecordParam] is nil panics before it posts.) *)
Theorem operations_post_to_wire_methods {Response : Type}
    (base : Values) (post : @Transport Response) :
  (outbound post (DomainsService_List base)).*1 = ["Domain.List"]
  ∧ (∀ domainAttributes,
       (outbound post (DomainsService_Create base domainAttributes)).*1
       = ["Domain.Create"])
  ∧ (∀ id domain,
       (outbound post (DomainsService_Get base id domain)).*1
       = ["Domain.Info"])
  ∧ (∀ id domain,
       (outbound post (DomainsService_Delete base id domain)).*1
       = ["Domain.Remove"])
  ∧ (∀ p,
       (outbound post (RecordsService_List base p)).*1
       = match ListParams.RecordParam p with
         | Some _ => ["Record.List"]
         | None => []
         end)
  ∧ (∀ domain domainId recordAttributes,
       (outbound post
          (RecordsService_Create base domain domainId recordAttributes)).*1
       = ["Record.Create"])
  ∧ (∀ domain domainId recordID,
       (outbound post
          (RecordsService_Get base domain domainId recordID)).*1
       = ["Record.Info"])
  ∧ (∀ domainId domain recordID recordAttributes,
       (outbound post
          (RecordsService_Update base domainId domain recordID
             recordAttributes)).*1
       = ["Record.Modify"])
  ∧ (∀ domainId domain recordID,
       (outbound post
          (RecordsService_Delete base domainId domain recordID)).*1
       = ["Record.Remove"]).
Proof.
  repeat split; intros.
  - by rewrite outbound_DomainsService_List.
  - by rewrite outbound_DomainsService_Create.
  - by rewrite outbound_DomainsService_Get.
  - by rewrite outbound_DomainsService_Delete.
  - rewrite outbound_RecordsService_List.
    unfold RecordsService_List_payload, ListParams_ToURLValues.
    by destruct (ListParams.RecordParam p).
  - by rewrite outbound_RecordsService_Create.
  - by rewrite outbound_RecordsService_Get.
  - by rewrite outbound_RecordsService_Update.
  - by rewrite outbound_RecordsService_Delete.
Qed.

(** ** The record type filter is sent twice *)

(** C9. Whenever [RecordsService.List] is given a non-empty [RecordType], the
    payload it posts has that value twice in a row under "record_type": once
    from [ListParams.ToURLValues], once more from [List] itself. *)
Theorem RecordsService_List_record_type_twice {Response : Type}
    (base : Values) (post : @Transport Response) (p : ListParams.t)
    (payload : Values) :
  ListParams.RecordType p ≠ "" →
  RecordsService_List_payload base p = Some payload →
  outbound post (RecordsService_List base p) = [(methodRecordList, payload)]
  ∧ (∃ values : Values,
       ListParams_ToURLValues p base = Some values
       ∧ values !! "record_type"
         = Some (default [] (base !! "record_type")
                 ++ [ListParams.RecordType p])%list)
  ∧ payload !! "record_type"
    = Some (default [] (base !! "record_type")
            ++ [ListParams.RecordType p; ListParams.RecordType p])%list.
Proof.
  intros Htype Hpayload.
  split; [by rewrite outbound_RecordsService_List, Hpayload |].
  revert Hpayload.
  unfold RecordsService_List_payload, ListParams_ToURLValues,
    RecordParam_ToURLValues.
  destruct (ListParams.RecordParam p) as [rp|]; [| done].
  intros [= <-]. split.
  - eexists. split; [reflexivity |]. payload_lookup.
    by destruct (decide (ListParams.RecordType p = "")).
  - payload_lookup.
    destruct (decide (ListParams.RecordType p = "")); [done |].
    simpl. by rewrite <- app_assoc.
Qed.

Lemma RecordsService_List_record_type_twice_witness :
  ∃ payload : Values,
    outbound (stub_status (Status.mk "1" "OK"))
      (RecordsService_List stub_common list_typed_example)
      = [(methodRecordList, payload)]
    ∧ payload !! "record_type" = Some ["A"; "A"].
Proof.
  eexists.
  destruct (RecordsService_List_record_type_twice stub_common
              (stub_status (Status.mk "1" "OK")) list_typed_example
              (Add "record_type" "A"
                 (Add "domain" "example.com"
                    (Add "record_type" "A" stub_common))))
    as (Hout & _ & Htwice).
  - discriminate.
  - reflexivity.
  - split; [exact Hout | exact Htwice].
Defined.

(** ** A status error comes without a response *)

Ltac status_error_case Hpost :=
  cbn [run]; rewrite Hpost;
  match goal with
  | Hcode : ?code ≠ "1" |- _ =>
      destruct (String.eqb_spec code "1"); [done |]
  end;
  reflexivity.

Ltac response_case post :=
  let a := fresh "a" in
  let r := fresh "r" in
  let e := fresh "e" in
  let Hpost := fresh "Hpost" in
  intros a r e; cbn [run];
  destruct (post _ _ _ _) as [[? [?|]] ?] eqn:Hpost;
  repeat match goal with
         | |- context [String.eqb ?x ?y] => destruct (String.eqb x y)
         end;
  cbn [negb andb run]; intros [= <-]; cbv [response_and_error id];
  cbn [fst snd]; intros [= ? ?]; subst; eauto.

(** C10. For the five record operations and for [DomainsService.List], when
    [post] succeeds but the status check fails, the operation returns the
    status error with a nil response, dropping the response [post] gave;
    and a non-nil response only ever comes back with whatever error [post]
    itself returned, never with a status error. *)
Theorem status_error_has_no_response {Response : Type}
    (base : Values) (post : @Transport Response) :
  (∀ res w,
     post WDomainList methodDomainList base domainListWrapper.zero
       = (res, None, w) →
     Status.Code (domainListWrapper.Status w) ≠ "1" →
     run post (DomainsService_List base)
     = Some (None, None,
             Some (Errorf "could not get domains: "
                     (Status.Message (domainListWrapper.Status w)))))
  ∧ (∀ p payload res w,
     RecordsService_List_payload base p = Some payload →
     post WRecords methodRecordList payload recordsWrapper.zero
       = (res, None, w) →
     Status.Code (recordsWrapper.Status w) ≠ "1" →
     Status.Code (recordsWrapper.Status w) ≠ "10" →
     run post (RecordsService_List base p)
     = Some (None, None,
             Some (Errorf "could not get domains: "
                     (Status.Message (recordsWrapper.Status w)))))
  ∧ (∀ domain domainId recordAttributes res w,
     post WRecord methodRecordCreate
       (RecordsService_Create_payload base domain domainId recordAttributes)
       recordWrapper.zero = (res, None, w) →
     Status.Code (recordWrapper.Status w) ≠ "1" →
     run post (RecordsService_Create base domain domainId recordAttributes)
     = Some (recordWrapper.Record_ w, None,
             Some (Errorf "could not create domains: "
                     (Status.Message (recordWrapper.Status w)))))
  ∧ (∀ domain domainId recordID res w,
     post WRecord methodRecordInfo
       (RecordsService_Get_payload base domain domainId recordID)
       recordWrapper.zero = (res, None, w) →
     Status.Code (recordWrapper.Status w) ≠ "1" →
     run post (RecordsService_Get base domain domainId recordID)
     = Some (recordWrapper.Record_ w, None,
             Some (Errorf "could not get domains: "
                     (Status.Message (recordWrapper.Status w)))))
  ∧ (∀ domainId domain recordID recordAttributes res w,
     post WRecordModify methodRecordModify
       (RecordsService_Update_payload base domainId domain recordID
          recordAttributes)
       recordModifyWrapper.zero = (res, None, w) →
     Status.Code (recordModifyWrapper.Status w) ≠ "1" →
     run post
       (RecordsService_Update base domainId domain recordID recordAttributes)
     = Some (recordModifyWrapper.Record_ w, None,
             Some (Errorf "could not get domains: "
                     (Status.Message (recordModifyWrapper.Status w)))))
  ∧ (∀ domainId domain recordID res w,
     post WRecord methodRecordRemove
       (RecordsService_Delete_payload base domainId domain recordID)
       recordWrapper.zero = (res, None, w) →
     Status.Code (recordWrapper.Status w) ≠ "1" →
     run post (RecordsService_Delete base domainId domain recordID)
     = Some (None,
             Some (Errorf "could not get domains: "
                     (Status.Message (recordWrapper.Status w)))))
  ∧ response_only_from_post response_and_error post
      WDomainList methodDomainList base (DomainsService_List base)
  ∧ (∀ p payload,
     RecordsService_List_payload base p = Some payload →
     response_only_from_post response_and_error post
       WRecords methodRecordList payload (RecordsService_List base p))
  ∧ (∀ domain domainId recordAttributes,
     response_only_from_post response_and_error post
       WRecord methodRecordCreate
       (RecordsService_Create_payload base domain domainId recordAttributes)
       (RecordsService_Create base domain domainId recordAttributes))
  ∧ (∀ domain domainId recordID,
     response_only_from_post response_and_error post
       WRecord methodRecordInfo
       (RecordsService_Get_payload base domain domainId recordID)
       (RecordsService_Get base domain domainId recordID))
  ∧ (∀ domainId domain recordID recordAttributes,
     response_only_from_post response_and_error post
       WRecordModify methodRecordModify
       (RecordsService_Update_payload base domainId domain recordID
          recordAttributes)
       (RecordsService_Update base domainId domain recordID
          recordAttributes))
  ∧ (∀ domainId domain recordID,
     response_only_from_post id post
       WRecord methodRecordRemove
       (RecordsService_Delete_payload base domainId domain recordID)
       (RecordsService_Delete base domainId domain recordID)).
Proof.
  split; [intros res w Hpost Hcode; unfold DomainsService_List;
          status_error_case Hpost |].
  split.
  { intros p payload res w Hpayload Hpost H1 H10.
    unfold RecordsService_List. rewrite Hpayload. cbn [run]. rewrite Hpost.
    destruct (String.eqb_spec (Status.Code (recordsWrapper.Status w)) "1");
      [done |].
    destruct (String.eqb_spec (Status.Code (recordsWrapper.Status w)) "10");
      [done |].
    reflexivity. }
  split; [intros domain domainId a res w Hpost Hcode;
          unfold RecordsService_Create; status_error_case Hpost |].
  split; [intros domain domainId recordID res w Hpost Hcode;
          unfold RecordsService_Get; status_error_case Hpost |].
  split; [intros domainId domain recordID a res w Hpost Hcode;
          unfold RecordsService_Update; status_error_case Hpost |].
  split; [intros domainId domain recordID res w Hpost Hcode;
          unfold RecordsService_Delete; status_error_case Hpost |].
  split; [unfold response_only_from_post, DomainsService_List;
          response_case post |].
  split.
  { intros p payload Hpayload.
    unfold response_only_from_post, RecordsService_List. rewrite Hpayload.
    response_case post. }
  split; [intros; unfold response_only_from_post, RecordsService_Create;
          response_case post |].
  split; [intros; unfold response_only_from_post, RecordsService_Get;
          response_case post |].
  split; [intros; unfold response_only_from_post, RecordsService_Update;
          response_case post |].
  intros; unfold response_only_from_post, RecordsService_Delete.
  response_case post.
Qed.

Lemma status_error_has_no_response_witness :
  let refused := stub_status (Status.mk "6" "no such record") in
  let e := errors_New "could not get domains: no such record" in
  run refused (DomainsService_List stub_common) = Some (None, None, Some e)
  ∧ run refused (RecordsService_List stub_common list_example)
    = Some (None, None, Some e)
  ∧ run refused
      (RecordsService_Create stub_common "example.com" "7" record_example)
    = Some (DNSRecord.zero, None,
            Some (errors_New "could not create domains: no such record"))
  ∧ run refused (RecordsService_Get stub_common "example.com" "7" 42)
    = Some (DNSRecord.zero, None, Some e)
  ∧ run refused
      (RecordsService_Update stub_common "7" "example.com" "42"
         record_example)
    = Some (RecordModify.zero, None, Some e)
  ∧ run refused (RecordsService_Delete stub_common 7 "example.com" "42")
    = Some (None, Some e).
Proof.
  intros refused e.
  destruct (status_error_has_no_response stub_common refused)
    as (HDomains & HList & HCreate & HGet & HUpdate & HDelete & _).
  pose (st := Status.mk "6" "no such record").
  split; [| split; [| split; [| split; [| split]]]].
  - apply (HDomains (Some 200) (status_only st WDomainList) eq_refl).
    discriminate.
  - apply (HList list_example (Add "domain" "example.com" stub_common)
             (Some 200) (status_only st WRecords) eq_refl eq_refl);
      discriminate.
  - apply (HCreate "example.com" "7" record_example (Some 200)
             (status_only st WRecord) eq_refl).
    discriminate.
  - apply (HGet "example.com" "7" 42%Z (Some 200) (status_only st WRecord)
             eq_refl).
    discriminate.
  - apply (HUpdate "7" "example.com" "42" record_example (Some 200)
             (status_only st WRecordModify) eq_refl).
    discriminate.
  - apply (HDelete 7%Z "example.com" "42" (Some 200) (status_only st WRecord)
             eq_refl).
    discriminate.
Defined.

(** ** Edge cases *)

(** A listing without the embedded [RecordParam] panics on the nil pointer
    before any request is made. *)
Lemma RecordsService_List_nil_RecordParam {Response : Type}
    (base : Values) (post : @Transport Response) (p : ListParams.t) :
  ListParams.RecordParam p = None →
  run post (RecordsService_List base p) = None
  ∧ outbound post (RecordsService_List base p) = [].
Proof.
  intros Hnil.
  unfold RecordsService_List, RecordsService_List_payload,
    ListParams_ToURLValues.
  by rewrite Hnil.
Qed.

(** [Set] writes the addressing fields of the domain operations whatever was
    stored under those keys before, and leaves every other key alone. *)
Lemma DomainsService_Get_payload_lookup (base : Values) id domain key :
  DomainsService_Get_payload base id domain !! key
  = if decide (key = "domain") then Some [domain]
    else if decide (key = "domain_id") then Some [id]
    else base !! key.
Proof.
  unfold DomainsService_Get_payload.
  destruct (decide (key = "domain")) as [-> | ?]; [by payload_lookup |].
  destruct (decide (key = "domain_id")) as [-> | ?]; by payload_lookup.
Qed.

(** Record operations send their addressing fields even when they are
    empty. *)
Example RecordsService_Get_empty_domain :
  RecordsService_Get_payload stub_common "" "7" 42 !! "domain" = Some [""].
Proof. reflexivity. Qed.

(** A transport error comes back unchanged, with whatever response [post]
    gave and the zero entity. *)
Example transport_error_passes_through :
  let e := errors_New "dial tcp: connection refused" in
  run (stub_failing e) (RecordsService_Get stub_common "example.com" "7" 42)
    = Some (DNSRecord.zero, None, Some e)
  ∧ run (stub_failing e) (DomainsService_Delete stub_common "7" "example.com")
    = Some (None, Some e).
Proof. split; reflexivity. Qed.

(** * Further properties of the two services *)

(** ** Transport errors *)

(** X1. When [post] returns an error, every operation returns that very
    error together with the response [post] gave, and the zero entity (a nil
    slice, an empty [Domain], [Record] or [RecordModify]); whatever the
    decoder left in the envelope is dropped and no status check is made. *)
Theorem transport_error_returned_unchanged {Response : Type}
    (base : Values) (post : @Transport Response) :
  (∀ res e w,
     post WDomainList methodDomainList base domainListWrapper.zero
       = (res, Some e, w) →
     run post (DomainsService_List base) = Some (None, res, Some e))
  ∧ (∀ domainAttributes res e w,
     post WDomain methodDomainCreate
       (DomainsService_Create_payload base domainAttributes)
       domainWrapper.zero = (res, Some e, w) →
     run post (DomainsService_Create base domainAttributes)
     = Some (Domain.zero, res, Some e))
  ∧ (∀ id domain res e w,
     post WDomain methodDomainInfo (DomainsService_Get_payload base id domain)
       domainWrapper.zero = (res, Some e, w) →
     run post (DomainsService_Get base id domain)
     = Some (Domain.zero, res, Some e))
  ∧ (∀ id domain res e w,
     post WDomain methodDomainRemove
       (DomainsService_Delete_payload base id domain)
       domainWrapper.zero = (res, Some e, w) →
     run post (DomainsService_Delete base id domain) = Some (res, Some e))
  ∧ (∀ p payload res e w,
     RecordsService_List_payload base p = Some payload →
     post WRecords methodRecordList payload recordsWrapper.zero
       = (res, Some e, w) →
     run post (RecordsService_List base p) = Some (None, res, Some e))
  ∧ (∀ domain domainId recordAttributes res e w,
     post WRecord methodRecordCreate
       (RecordsService_Create_payload base domain domainId recordAttributes)
       recordWrapper.zero = (res, Some e, w) →
     run post (RecordsService_Create base domain domainId recordAttributes)
     = Some (DNSRecord.zero, res, Some e))
  ∧ (∀ domain domainId recordID res e w,
     post WRecord methodRecordInfo
       (RecordsService_Get_payload base domain domainId recordID)
       recordWrapper.zero = (res, Some e, w) →
     run post (RecordsService_Get base domain domainId recordID)
     = Some (DNSRecord.zero, res, Some e))
  ∧ (∀ domainId domain recordID recordAttributes res e w,
     post WRecordModify methodRecordModify
       (RecordsService_Update_payload base domainId domain recordID
          recordAttributes)
       recordModifyWrapper.zero = (res, Some e, w) →
     run post
       (RecordsService_Update base domainId domain recordID recordAttributes)
     = Some (RecordModify.zero, res, Some e))
  ∧ (∀ domainId domain recordID res e w,
     post WRecord methodRecordRemove
       (RecordsService_Delete_payload base domainId domain recordID)
       recordWrapper.zero = (res, Some e, w) →
     run post (RecordsService_Delete base domainId domain recordID)
     = Some (res, Some e)).
Proof.
  repeat split; intros;
    unfold DomainsService_List, DomainsService_Create, DomainsService_Get,
      DomainsService_Delete, RecordsService_List, RecordsService_Create,
      RecordsService_Get, RecordsService_Update, RecordsService_Delete;
    repeat match goal with
           | H : RecordsService_List_payload _ _ = Some _ |- _ =>
               rewrite H; clear H
           end;
    cbn [run];
    match goal with H : post _ _ _ _ = _ |- _ => by rewrite H end.
Qed.

Lemma transport_error_returned_unchanged_witness :
  let e := errors_New "502 Bad Gateway" in
  let broken := stub_rejecting e sample_reply in
  run broken (DomainsService_List stub_common) = Some (None, Some 502, Some e)
  ∧ run broken (DomainsService_Create stub_common domain_example)
    = Some (Domain.zero, Some 502, Some e)
  ∧ run broken (DomainsService_Delete stub_common "42" "example.com")
    = Some (Some 502, Some e)
  ∧ run broken (RecordsService_List stub_common list_example)
    = Some (None, Some 502, Some e)
  ∧ run broken (RecordsService_Get stub_common "example.com" "7" 42)
    = Some (DNSRecord.zero, Some 502, Some e)
  ∧ run broken
      (RecordsService_Update stub_common "7" "example.com" "42"
         record_example)
    = Some (RecordModify.zero, Some 502, Some e).
Proof.
  intros e broken.
  destruct (transport_error_returned_unchanged stub_common broken)
    as (HDL & HDC & _ & HDD & HRL & _ & HRG & HRU & _).
  split; [| split; [| split; [| split; [| split]]]].
  - exact (HDL (Some 502) e (sample_reply WDomainList) eq_refl).
  - exact (HDC domain_example (Some 502) e (sample_reply WDomain) eq_refl).
  - exact (HDD "42" "example.com" (Some 502) e (sample_reply WDomain)
             eq_refl).
  - exact (HRL list_example (Add "domain" "example.com" stub_common)
             (Some 502) e (sample_reply WRecords) eq_refl eq_refl).
  - exact (HRG "example.com" "7" 42%Z (Some 502) e (sample_reply WRecord)
             eq_refl).
  - exact (HRU "7" "example.com" "42" record_example (Some 502) e
             (sample_reply WRecordModify) eq_refl).
Defined.

(** ** Accepted answers *)

(** X2. When [post] succeeds and the decoded status code is "1",
    [DomainsService.List] and the record operations [Create], [Get],
    [Update] and [Delete] return the decoded entity (for [Delete]: nothing)
    with the transport's response and a nil error; the status message and
    the rest of the envelope play no part. *)
Theorem status_one_returns_entity {Response : Type}
    (base : Values) (post : @Transport Response) :
  (∀ res w,
     post WDomainList methodDomainList base domainListWrapper.zero
       = (res, None, w) →
     Status.Code (domainListWrapper.Status w) = "1" →
     run post (DomainsService_List base)
     = Some (domainListWrapper.Domains w, res, None))
  ∧ (∀ domain domainId recordAttributes res w,
     post WRecord methodRecordCreate
       (RecordsService_Create_payload base domain domainId recordAttributes)
       recordWrapper.zero = (res, None, w) →
     Status.Code (recordWrapper.Status w) = "1" →
     run post (RecordsService_Create base domain domainId recordAttributes)
     = Some (recordWrapper.Record_ w, res, None))
  ∧ (∀ domain domainId recordID res w,
     post WRecord methodRecordInfo
       (RecordsService_Get_payload base domain domainId recordID)
       recordWrapper.zero = (res, None, w) →
     Status.Code (recordWrapper.Status w) = "1" →
     run post (RecordsService_Get base domain domainId recordID)
     = Some (recordWrapper.Record_ w, res, None))
  ∧ (∀ domainId domain recordID recordAttributes res w,
     post WRecordModify methodRecordModify
       (RecordsService_Update_payload base domainId domain recordID
          recordAttributes)
       recordModifyWrapper.zero = (res, None, w) →
     Status.Code (recordModifyWrapper.Status w) = "1" →
     run post
       (RecordsService_Update base domainId domain recordID recordAttributes)
     = Some (recordModifyWrapper.Record_ w, res, None))
  ∧ (∀ domainId domain recordID res w,
     post WRecord methodRecordRemove
       (RecordsService_Delete_payload base domainId domain recordID)
       recordWrapper.zero = (res, None, w) →
     Status.Code (recordWrapper.Status w) = "1" →
     run post (RecordsService_Delete base domainId domain recordID)
     = Some (res, None)).
Proof.
  repeat split; intros;
    unfold DomainsService_List, RecordsService_Create, RecordsService_Get,
      RecordsService_Update, RecordsService_Delete;
    cbn [run];
    match goal with
    | Hpost : post _ _ _ _ = _, Hcode : Status.Code _ = "1" |- _ =>
        by rewrite Hpost, Hcode
    end.
Qed.

Lemma status_one_returns_entity_witness :
  let served := stub_reply sample_reply in
  run served (DomainsService_List stub_common)
    = Some (Some [domain_stored_example], Some 200, None)
  ∧ run served
      (RecordsService_Create stub_common "example.com" "7" record_example)
    = Some (record_stored_example, Some 200, None)
  ∧ run served (RecordsService_Get stub_common "example.com" "7" 16894439)
    = Some (record_stored_example, Some 200, None)
  ∧ run served
      (RecordsService_Update stub_common "7" "example.com" "16894439"
         record_example)
    = Some (RecordModify.mk "16894439" "www" "192.0.2.1" "enable",
            Some 200, None)
  ∧ run served
      (RecordsService_Delete stub_common 7 "example.com" "16894439")
    = Some (Some 200, None).
Proof.
  intros served.
  destruct (status_one_returns_entity stub_common served)
    as (HDL & HRC & HRG & HRU & HRD).
  split; [| split; [| split; [| split]]].
  - exact (HDL (Some 200) (sample_reply WDomainList) eq_refl eq_refl).
  - exact (HRC "example.com" "7" record_example (Some 200)
             (sample_reply WRecord) eq_refl eq_refl).
  - exact (HRG "example.com" "7" 16894439%Z (Some 200)
             (sample_reply WRecord) eq_refl eq_refl).
  - exact (HRU "7" "example.com" "16894439" record_example (Some 200)
             (sample_reply WRecordModify) eq_refl eq_refl).
  - exact (HRD 7%Z "example.com" "16894439" (Some 200)
             (sample_reply WRecord) eq_refl eq_refl).
Defined.

(** ** Filters of the record listing *)

(** X3. In the request [RecordsService.List] posts, each of offset, length,
    sub_domain, record_line, record_line_id, keyword, domain_id and domain
    is present exactly when its field is non-empty and then holds that field
    once; record_type is absent for an empty [RecordType] and holds the
    value twice otherwise (for common parameters that do not carry the key
    themselves). *)
Theorem RecordsService_List_filters {Response : Type}
    (base : Values) (post : @Transport Response)
    (p : ListParams.t) (rp : RecordParam.t) :
  ListParams.RecordParam p = Some rp →
  ∃ payload : Values,
    outbound post (RecordsService_List base p) = [(methodRecordList, payload)]
    ∧ (∀ key field,
         (key, field) ∈ [("offset", ListParams.Offset p);
                         ("length", ListParams.Length p);
                         ("sub_domain", ListParams.SubDomain p);
                         ("record_line", ListParams.RecordLine p);
                         ("record_line_id", ListParams.RecordLineID p);
                         ("keyword", ListParams.keyword p);
                         ("domain_id", RecordParam.DomainID rp);
                         ("domain", RecordParam.Domain rp)] →
         base !! key = None →
         payload !! key = if decide (field = "") then None else Some [field])
    ∧ (base !! "record_type" = None →
       payload !! "record_type"
       = if decide (ListParams.RecordType p = "") then None
         else Some [ListParams.RecordType p; ListParams.RecordType p]).
Proof.
  intros Hrp. rewrite outbound_RecordsService_List.
  unfold RecordsService_List_payload, ListParams_ToURLValues,
    RecordParam_ToURLValues.
  rewrite Hrp. eexists. split; [reflexivity |]. split.
  - intros key field Hin Hbase.
    repeat (apply elem_of_cons in Hin as [Hin | Hin]; [simplify_eq |]);
      [.. | by apply elem_of_nil in Hin];
      payload_lookup; rewrite Hbase; by destruct (decide _).
  - intros Hbase. payload_lookup. rewrite Hbase.
    by destruct (decide (ListParams.RecordType p = "")).
Qed.

Lemma RecordsService_List_filters_witness :
  ∃ payload : Values,
    outbound (stub_reply sample_reply)
      (RecordsService_List stub_common list_filtered_example)
      = [(methodRecordList, payload)]
    ∧ payload !! "offset" = Some ["20"]
    ∧ payload !! "record_line_id" = None
    ∧ payload !! "keyword" = Some ["mail"]
    ∧ payload !! "domain_id" = Some ["2238269"]
    ∧ payload !! "record_type" = None.
Proof.
  destruct (RecordsService_List_filters stub_common (stub_reply sample_reply)
              list_filtered_example (RecordParam.mk "2238269" "example.com")
              eq_refl)
    as (payload & Hout & Hfilters & Htype).
  exists payload. split; [exact Hout |].
  split; [| split; [| split; [| split]]].
  - apply (Hfilters "offset" "20"); [apply list_elem_of_here | reflexivity].
  - apply (Hfilters "record_line_id" "");
      [do 4 apply list_elem_of_further; apply list_elem_of_here
      | reflexivity].
  - apply (Hfilters "keyword" "mail");
      [do 5 apply list_elem_of_further; apply list_elem_of_here
      | reflexivity].
  - apply (Hfilters "domain_id" "2238269");
      [do 6 apply list_elem_of_further; apply list_elem_of_here
      | reflexivity].
  - exact (Htype eq_refl).
Defined.

(** X4. [ListParams.ToURLValues] on its own never writes the domain
    reference: [RecordParam.ToURLValues] adds nothing, so "domain" and
    "domain_id" come out exactly as they went in, whatever the embedded
    [RecordParam] holds, and everything already in the map is kept. *)
Theorem ListParams_ToURLValues_leaves_domain
    (p : ListParams.t) (values out : Values) :
  ListParams_ToURLValues p values = Some out →
  out !! "domain" = values !! "domain"
  ∧ out !! "domain_id" = values !! "domain_id"
  ∧ extends values out.
Proof.
  unfold ListParams_ToURLValues, RecordParam_ToURLValues.
  destruct (ListParams.RecordParam p) as [rp|]; [| done].
  intros [= <-]. split; [by payload_lookup |]. split; [by payload_lookup |].
  repeat apply extends_when_Add. apply extends_refl.
Qed.

Lemma ListParams_ToURLValues_leaves_domain_witness :
  ∃ out : Values,
    ListParams_ToURLValues list_filtered_example stub_common = Some out
    ∧ out !! "domain" = None
    ∧ out !! "domain_id" = None
    ∧ out !! "offset" = Some ["20"].
Proof.
  eexists. split; [reflexivity |].
  destruct (ListParams_ToURLValues_leaves_domain list_filtered_example
              stub_common _ eq_refl) as (Hd & Hi & _).
  split; [exact Hd | split; [exact Hi | reflexivity]].
Defined.

(** X5. [RecordsService.List] panics exactly when the embedded [RecordParam]
    pointer is nil, and then nothing has been posted; with a [RecordParam]
    in place it returns whatever the transport does. *)
Theorem RecordsService_List_panics_iff_nil {Response : Type}
    (base : Values) (post : @Transport Response) (p : ListParams.t) :
  (run post (RecordsService_List base p) = None
   ↔ ListParams.RecordParam p = None)
  ∧ (outbound post (RecordsService_List base p) = []
     ↔ ListParams.RecordParam p = None).
Proof.
  rewrite outbound_RecordsService_List.
  unfold RecordsService_List, RecordsService_List_payload,
    ListParams_ToURLValues.
  destruct (ListParams.RecordParam p) as [rp|]; [| done].
  split; (split; [| done]).
  - cbn [run]. destruct (post _ _ _ _) as [[res [e|]] w]; [done |].
    by destruct (negb _ && negb _).
  - done.
Qed.

(** ** What the requests depend on *)

(** X6. [RecordsService.Create] and [Update] forward only Name, Type, Line,
    LineID, Value, MX, TTL, Status and Weight: two attribute records that
    agree on these nine fields give the same request, so ID, Enabled,
    MonitorStatus, Remark, UpdateOn and UseAQB never reach the server. *)
Theorem RecordsService_payload_ignores_unsent_fields
    (base : Values) (domain domainId recordID : string)
    (a b : DNSRecord.t) :
  DNSRecord.Name a = DNSRecord.Name b →
  DNSRecord.Type_ a = DNSRecord.Type_ b →
  DNSRecord.Line a = DNSRecord.Line b →
  DNSRecord.LineID a = DNSRecord.LineID b →
  DNSRecord.Value a = DNSRecord.Value b →
  DNSRecord.MX a = DNSRecord.MX b →
  DNSRecord.TTL a = DNSRecord.TTL b →
  DNSRecord.Status a = DNSRecord.Status b →
  DNSRecord.Weight a = DNSRecord.Weight b →
  RecordsService_Create_payload base domain domainId a
    = RecordsService_Create_payload base domain domainId b
  ∧ RecordsService_Update_payload base domainId domain recordID a
    = RecordsService_Update_payload base domainId domain recordID b.
Proof.
  intros HN HT HL HI HV HM HTTL HS HW.
  unfold RecordsService_Create_payload, RecordsService_Update_payload.
  by rewrite HN, HT, HL, HI, HV, HM, HTTL, HS, HW.
Qed.

Lemma RecordsService_payload_ignores_unsent_fields_witness :
  DNSRecord.Remark record_example ≠ DNSRecord.Remark record_annotated_example
  ∧ DNSRecord.ID record_example ≠ DNSRecord.ID record_annotated_example
  ∧ RecordsService_Create_payload stub_common "example.com" "7"
      record_example
    = RecordsService_Create_payload stub_common "example.com" "7"
        record_annotated_example
  ∧ RecordsService_Update_payload stub_common "7" "example.com" "42"
      record_example
    = RecordsService_Update_payload stub_common "7" "example.com" "42"
        record_annotated_example.
Proof.
  split; [discriminate |]. split; [discriminate |].
  exact (RecordsService_payload_ignores_unsent_fields stub_common
           "example.com" "7" "42" record_example record_annotated_example
           eq_refl eq_refl eq_refl eq_refl eq_refl eq_refl eq_refl eq_refl
           eq_refl).
Defined.

(** X7. [DomainsService.Create] forwards only Name, GroupID and IsMark: two
    domains that agree on these three fields give the same request, whatever
    their other seventeen fields hold. *)
Theorem DomainsService_Create_payload_ignores_unsent_fields
    (base : Values) (a b : Domain.t) :
  Domain.Name a = Domain.Name b →
  Domain.GroupID a = Domain.GroupID b →
  Domain.IsMark a = Domain.IsMark b →
  DomainsService_Create_payload base a = DomainsService_Create_payload base b.
Proof.
  intros HN HG HM. unfold DomainsService_Create_payload.
  by rewrite HN, HG, HM.
Qed.

Lemma DomainsService_Create_payload_ignores_unsent_fields_witness :
  domain_example ≠ domain_annotated_example
  ∧ DomainsService_Create_payload stub_common domain_example
    = DomainsService_Create_payload stub_common domain_annotated_example.
Proof.
  split; [discriminate |].
  exact (DomainsService_Create_payload_ignores_unsent_fields stub_common
           domain_example domain_annotated_example eq_refl eq_refl eq_refl).
Defined.

(** ** Addressing fields *)

(** X8. The record operations [Create], [Get], [Update] and [Delete] append
    their addressing arguments without looking at them: domain and domain_id
    (for [Delete] the decimal rendering of the integer), and for [Update]
    and [Delete] the record_id string, are added to the payload whatever
    their value, the empty string included. *)
Theorem RecordsService_addressing_always_sent
    (base : Values) (domain domainId recordID : string) (n : Z)
    (recordAttributes : DNSRecord.t) :
  let sent key value := Some (default [] (base !! key) ++ [value])%list in
  (RecordsService_Create_payload base domain domainId recordAttributes
     !! "domain" = sent "domain" domain
   ∧ RecordsService_Create_payload base domain domainId recordAttributes
       !! "domain_id" = sent "domain_id" domainId)
  ∧ (RecordsService_Get_payload base domain domainId n !! "domain"
     = sent "domain" domain
     ∧ RecordsService_Get_payload base domain domainId n !! "domain_id"
       = sent "domain_id" domainId)
  ∧ (RecordsService_Update_payload base domainId domain recordID
       recordAttributes !! "domain" = sent "domain" domain
     ∧ RecordsService_Update_payload base domainId domain recordID
         recordAttributes !! "domain_id" = sent "domain_id" domainId
     ∧ RecordsService_Update_payload base domainId domain recordID
         recordAttributes !! "record_id" = sent "record_id" recordID)
  ∧ (RecordsService_Delete_payload base n domain recordID !! "domain"
     = sent "domain" domain
     ∧ RecordsService_Delete_payload base n domain recordID !! "domain_id"
       = sent "domain_id" (Itoa n)
     ∧ RecordsService_Delete_payload base n domain recordID !! "record_id"
       = sent "record_id" recordID).
Proof.
  intros sent. unfold sent.
  unfold RecordsService_Create_payload, RecordsService_Update_payload,
    RecordsService_Get_payload, RecordsService_Delete_payload.
  destruct (DNSRecord.Weight recordAttributes);
    repeat split; by payload_lookup.
Qed.

(** X9. [DomainsService.Get] and [Delete] write "domain_id" and "domain"
    with [Set]: each key ends up holding exactly the one argument, empty or
    not, whatever the common parameters held under it, and every other key
    is as the common parameters have it. *)
Theorem DomainsService_Get_Delete_payload_lookup
    (base : Values) (id domain key : string) :
  let expected :=
    if decide (key = "domain") then Some [domain]
    else if decide (key = "domain_id") then Some [id]
    else base !! key in
  DomainsService_Get_payload base id domain !! key = expected
  ∧ DomainsService_Delete_payload base id domain !! key = expected.
Proof.
  intros expected. unfold expected.
  unfold DomainsService_Get_payload, DomainsService_Delete_payload.
  destruct (decide (key = "domain")) as [-> | ?]; [by payload_lookup |].
  destruct (decide (key = "domain_id")) as [-> | ?]; by payload_lookup.
Qed.

(** ** Keys an operation does not own *)

Ltac split_not_elem H :=
  repeat (apply not_elem_of_cons in H as [? H]); clear H.

(** X10. No operation touches a key other than the ones it writes: under
    every other key (the common parameters' login token and the like) the
    posted payload holds exactly what [CommonParams.toPayLoad] provided. *)
Theorem operations_touch_only_their_keys (base : Values) (key : string) :
  (∀ domainAttributes,
     key ∉ ["domain"; "group_id"; "is_mark"] →
     DomainsService_Create_payload base domainAttributes !! key = base !! key)
  ∧ (∀ id domain,
     key ∉ ["domain_id"; "domain"] →
     DomainsService_Get_payload base id domain !! key = base !! key
     ∧ DomainsService_Delete_payload base id domain !! key = base !! key)
  ∧ (∀ p payload,
     key ∉ ["offset"; "length"; "sub_domain"; "record_type"; "record_line";
            "record_line_id"; "keyword"; "domain_id"; "domain"] →
     RecordsService_List_payload base p = Some payload →
     payload !! key = base !! key)
  ∧ (∀ domain domainId recordID recordAttributes,
     key ∉ ["domain"; "domain_id"; "record_id"; "sub_domain"; "record_type";
            "record_line"; "record_line_id"; "value"; "mx"; "ttl"; "status";
            "weight"] →
     RecordsService_Create_payload base domain domainId recordAttributes
       !! key = base !! key
     ∧ RecordsService_Update_payload base domainId domain recordID
         recordAttributes !! key = base !! key)
  ∧ (∀ domain domainId recordID n,
     key ∉ ["domain"; "domain_id"; "record_id"] →
     RecordsService_Get_payload base domain domainId n !! key = base !! key
     ∧ RecordsService_Delete_payload base n domain recordID !! key
       = base !! key).
Proof.
  split; [| split; [| split; [| split]]].
  - intros a Hkey. split_not_elem Hkey.
    unfold DomainsService_Create_payload. by payload_lookup.
  - intros id domain Hkey. split_not_elem Hkey.
    unfold DomainsService_Get_payload, DomainsService_Delete_payload.
    split; by payload_lookup.
  - intros p payload Hkey. split_not_elem Hkey.
    unfold RecordsService_List_payload, ListParams_ToURLValues,
      RecordParam_ToURLValues.
    destruct (ListParams.RecordParam p) as [rp|]; [| done].
    intros [= <-]. by payload_lookup.
  - intros domain domainId recordID a Hkey. split_not_elem Hkey.
    unfold RecordsService_Create_payload, RecordsService_Update_payload.
    destruct (DNSRecord.Weight a); split; by payload_lookup.
  - intros domain domainId recordID n Hkey. split_not_elem Hkey.
    unfold RecordsService_Get_payload, RecordsService_Delete_payload.
    split; by payload_lookup.
Qed.

Ltac key_not_listed :=
  repeat (apply not_elem_of_cons; split; [discriminate |]);
  apply not_elem_of_nil.

Lemma operations_touch_only_their_keys_witness :
  DomainsService_Create_payload stub_common domain_example !! "login_token"
    = Some ["id,token"]
  ∧ DomainsService_Delete_payload stub_common "42" "example.com"
      !! "login_token" = Some ["id,token"]
  ∧ RecordsService_Update_payload stub_common "7" "example.com" "42"
      record_weighted_example !! "login_token" = Some ["id,token"]
  ∧ RecordsService_Delete_payload stub_common 7 "example.com" "42"
      !! "format" = Some ["json"].
Proof.
  destruct (operations_touch_only_their_keys stub_common "login_token")
    as (HDC & HDG & _ & HRC & _).
  destruct (operations_touch_only_their_keys stub_common "format")
    as (_ & _ & _ & _ & HRG).
  split; [| split; [| split]].
  - apply (HDC domain_example). key_not_listed.
  - apply (HDG "42" "example.com"). key_not_listed.
  - apply (HRC "example.com" "7" "42" record_weighted_example).
    key_not_listed.
  - apply (HRG "example.com" "" "42" 7%Z). key_not_listed.
Defined.

(** ** Integer identifiers *)

(** X11. Distinct integers give distinct requests: [RecordsService.Get]
    called for two different record IDs, or [Delete] for two different
    domain IDs, never posts the same payload (the decimal rendering loses
    nothing). *)
Theorem RecordsService_integer_ids_distinguished
    (base : Values) (domain domainId recordID : string) (i j : Z) :
  i ≠ j →
  RecordsService_Get_payload base domain domainId i
    ≠ RecordsService_Get_payload base domain domainId j
  ∧ RecordsService_Delete_payload base i domain recordID
    ≠ RecordsService_Delete_payload base j domain recordID.
Proof.
  intros Hne. split; intros Heq; apply Hne.
  - apply (f_equal (λ payload : Values, payload !! "record_id")) in Heq.
    revert Heq. unfold RecordsService_Get_payload. payload_lookup.
    intros [= Heq%app_inv_head]. apply Itoa_inj. congruence.
  - apply (f_equal (λ payload : Values, payload !! "domain_id")) in Heq.
    revert Heq. unfold RecordsService_Delete_payload. payload_lookup.
    intros [= Heq%app_inv_head]. apply Itoa_inj. congruence.
Qed.

Lemma RecordsService_integer_ids_distinguished_witness :
  RecordsService_Get_payload stub_common "example.com" "7" 1
    ≠ RecordsService_Get_payload stub_common "example.com" "7" 10
  ∧ RecordsService_Delete_payload stub_common (-7) "example.com" "42"
    ≠ RecordsService_Delete_payload stub_common 7 "example.com" "42".
Proof.
  split.
  - apply (RecordsService_integer_ids_distinguished stub_common
             "example.com" "7" "42" 1 10).
    discriminate.
  - apply (RecordsService_integer_ids_distinguished stub_common
             "example.com" "7" "42" (-7) 7).
    discriminate.
Defined.

(** ** Order of the appends *)

Lemma Add_commute key1 value1 key2 value2 (v : Values) :
  key1 ≠ key2 →
  Add key1 value1 (Add key2 value2 v) = Add key2 value2 (Add key1 value1 v).
Proof.
  intros Hne. unfold Add.
  rewrite (lookup_insert_ne v key2 key1) by done.
  rewrite (lookup_insert_ne v key1 key2) by done.
  by apply insert_insert_ne.
Qed.

Lemma when_Add_commute c key1 value1 key2 value2 (v : Values) :
  key1 ≠ key2 →
  when c (Add key1 value1) (Add key2 value2 v)
  = Add key2 value2 (when c (Add key1 value1) v).
Proof. intros. destruct c; simpl; [by apply Add_commute | done]. Qed.

Lemma recordAttributes_payload_Add_record_id a value (v : Values) :
  recordAttributes_payload a (Add "record_id" value v)
  = Add "record_id" value (recordAttributes_payload a v).
Proof.
  unfold recordAttributes_payload.
  rewrite !when_Add_commute by done.
  destruct (DNSRecord.Weight a); [by rewrite Add_commute |done].
Qed.

(** X12. An update sends what a create sends, plus the record to change:
    the payload of [RecordsService.Update] is the payload [Create] builds
    from the same domain, domain ID and attributes with "record_id"
    appended, although the two methods take and add their addressing
    arguments in a different order. *)
Theorem RecordsService_Update_payload_is_Create_plus_record_id
    (base : Values) (domain domainId recordID : string)
    (recordAttributes : DNSRecord.t) :
  RecordsService_Update_payload base domainId domain recordID recordAttributes
  = Add "record_id" recordID
      (RecordsService_Create_payload base domain domainId recordAttributes).
Proof.
  rewrite RecordsService_Update_payload_attributes,
    RecordsService_Create_payload_attributes.
  rewrite recordAttributes_payload_Add_record_id.
  by rewrite (Add_commute "domain" domain "domain_id" domainId).
Qed.

(** X13. [RecordsService.Get] and [Delete] address a record with the same
    form: [Get] with a domain ID rendered by [strconv.Itoa] and [Delete]
    with a record ID rendered by [strconv.Itoa] post identical payloads,
    the string and integer parameters being swapped between the two
    signatures. *)
Theorem RecordsService_Get_Delete_same_payload
    (base : Values) (domain : string) (domainId recordID : Z) :
  RecordsService_Get_payload base domain (Itoa domainId) recordID
  = RecordsService_Delete_payload base domainId domain (Itoa recordID).
Proof.
  unfold RecordsService_Get_payload, RecordsService_Delete_payload.
  by rewrite (Add_commute "domain" domain "domain_id" (Itoa domainId)).
Qed.
